(** * Topshelf API: the WebSocket handlers and the REST health routes

    A shallow embedding of

    - [src/ws/handler.ts] as it is checked in (also written by the first
      scaffolding script of [setup.sh]): module [Shipped];
    - the [src/ws/handler.ts] that the second scaffolding script of
      [setup.sh] writes ([WS_HANDLER_TS], the JSON dispatcher): module
      [Generated];
    - the REST routers ([/health] of [src/api/routes.ts], [/status] of the
      [ROUTES_TS] template): module [Routes].

    JavaScript objects are references into a store; the callbacks are
    computations in a state-and-exception monad over that store. *)

From Stdlib Require Import List Ascii String Bool Arith Lia QArith DecimalString.
Import ListNotations.
Local Open Scope string_scope.
Local Open Scope nat_scope.

(** ** Values of the host language *)

(** [WebSocket.CONNECTING], [OPEN], [CLOSING], [CLOSED] of the [ws] package. *)
Inductive ReadyState := CONNECTING | OPEN | CLOSING | CLOSED.

Definition ReadyState_eqb (a b : ReadyState) : bool :=
  match a, b with
  | CONNECTING, CONNECTING | OPEN, OPEN | CLOSING, CLOSING | CLOSED, CLOSED => true
  | _, _ => false
  end.

(** A [WebSocket] object is a reference; [!==] on objects compares references. *)
Definition Ref := nat.

Definition strict_neq (a b : Ref) : bool := negb (Nat.eqb a b).

(** What [JSON.parse] can return, and [undefined] for absent properties.
    Finite doubles are rationals; no handler computes with a number. *)
#[local] Unset Elimination Schemes.
Inductive JsValue :=
| JUndefined
| JNull
| JBool (b : bool)
| JNumber (x : Q)
| JString (s : string)
| JArray (items : list JsValue)
| JObject (props : list (string * JsValue)).
#[local] Set Elimination Schemes.

Inductive JsError :=
| SyntaxError
| TypeError
| TransportError (what : string).

Inductive EventName := EvMessage | EvClose | EvError.

Definition EventName_eqb (a b : EventName) : bool :=
  match a, b with
  | EvMessage, EvMessage | EvClose, EvClose | EvError, EvError => true
  | _, _ => false
  end.

(** One call of [console.log] or [console.error], with its arguments. *)
Inductive LogLine :=
| Log (text : string)
| LogValue (text : string) (v : JsValue)
| LogError (text : string) (e : JsError).

(** ** The store

    [wss_clients] is [wss.clients], a [Set] iterated in insertion order;
    [readyState] is the field of each socket object; [handlers] the
    listeners attached with [ws.on]; [wire] every [send] call made so far,
    oldest first, as (socket, data); [date_reads] counts the [new Date()]
    evaluated so far. *)
Record World := mkWorld {
  wss_clients : list Ref;
  readyState : Ref -> ReadyState;
  handlers : list (Ref * EventName);
  wire : list (Ref * string);
  console : list LogLine;
  date_reads : nat
}.

Definition set_wire (f : list (Ref * string) -> list (Ref * string)) (w : World) : World :=
  mkWorld (wss_clients w) (readyState w) (handlers w) (f (wire w)) (console w) (date_reads w).

Definition set_console (f : list LogLine -> list LogLine) (w : World) : World :=
  mkWorld (wss_clients w) (readyState w) (handlers w) (wire w) (f (console w)) (date_reads w).

Definition set_handlers (f : list (Ref * EventName) -> list (Ref * EventName)) (w : World) : World :=
  mkWorld (wss_clients w) (readyState w) (f (handlers w)) (wire w) (console w) (date_reads w).

Definition set_date_reads (f : nat -> nat) (w : World) : World :=
  mkWorld (wss_clients w) (readyState w) (handlers w) (wire w) (console w) (f (date_reads w)).

Definition set_clients (f : list Ref -> list Ref) (w : World) : World :=
  mkWorld (f (wss_clients w)) (readyState w) (handlers w) (wire w) (console w) (date_reads w).

Definition set_readyState (ws : Ref) (st : ReadyState) (w : World) : World :=
  mkWorld (wss_clients w)
          (fun r => if Nat.eqb r ws then st else readyState w r)
          (handlers w) (wire w) (console w) (date_reads w).

(** ** Computations: state passing with exceptions *)

Inductive Completion (A : Type) :=
| Normal (a : A)
| Throw (e : JsError).
Arguments Normal {A} a.
Arguments Throw {A} e.

Definition Js (A : Type) : Type := World -> Completion A * World.

Definition ret {A} (a : A) : Js A := fun w => (Normal a, w).

Definition bind {A B} (m : Js A) (k : A -> Js B) : Js B :=
  fun w => match m w with
           | (Normal a, w') => k a w'
           | (Throw e, w') => (Throw e, w')
           end.

Definition throw {A} (e : JsError) : Js A := fun w => (Throw e, w).

(** [try { body } catch (error) { handler }] *)
Definition try_catch {A} (body : Js A) (handler : JsError -> Js A) : Js A :=
  fun w => match body w with
           | (Normal a, w') => (Normal a, w')
           | (Throw e, w') => handler e w'
           end.

Declare Scope js_scope.
Delimit Scope js_scope with js.
Notation "x <- m ;; k" := (bind m (fun x => k))
  (at level 61, m at next level, right associativity) : js_scope.
Notation "m ;; k" := (bind m (fun _ => k))
  (at level 61, right associativity) : js_scope.
Local Open Scope js_scope.

Definition exec {A} (m : Js A) (w : World) : World := snd (m w).
Definition outcome {A} (m : Js A) (w : World) : Completion A := fst (m w).

(** The [send] calls a computation adds to those already made. *)
Definition sent_by {A} (m : Js A) (w : World) : list (Ref * string) :=
  skipn (List.length (wire w)) (wire (exec m w)).

(** ** Primitives the handlers use *)

(** A number inside a template literal. *)
Definition show_nat (n : nat) : string :=
  DecimalString.NilZero.string_of_uint (Nat.to_uint n).

Definition console_log (text : string) : Js unit :=
  fun w => (Normal tt, set_console (fun c => (c ++ [Log text])%list) w).

Definition console_log_value (text : string) (v : JsValue) : Js unit :=
  fun w => (Normal tt, set_console (fun c => (c ++ [LogValue text v])%list) w).

Definition console_error (text : string) (e : JsError) : Js unit :=
  fun w => (Normal tt, set_console (fun c => (c ++ [LogError text e])%list) w).

(** [ws.send(data)]: the data is handed to the socket; the call returns
    nothing and the handlers never look at a result. *)
Definition send (ws : Ref) (data : string) : Js unit :=
  fun w => (Normal tt, set_wire (fun q => (q ++ [(ws, data)])%list) w).

(** [ws.on(event, listener)] *)
Definition on (ws : Ref) (ev : EventName) : Js unit :=
  fun w => (Normal tt, set_handlers (fun h => (h ++ [(ws, ev)])%list) w).

(** [wss.clients] *)
Definition clients : Js (list Ref) := fun w => (Normal (wss_clients w), w).

(** [client.readyState], read when the expression is evaluated. *)
Definition get_readyState (client : Ref) : Js ReadyState :=
  fun w => (Normal (readyState w client), w).

(** [set.forEach(callback)] *)
Fixpoint forEach (xs : list Ref) (callback : Ref -> Js unit) : Js unit :=
  match xs with
  | [] => ret tt
  | x :: rest => callback x ;; forEach rest callback
  end.

(** ** [src/ws/handler.ts] as checked in *)
Module Shipped.

Definition welcome : string := "Welcome to the WebSocket server!".

(** [ws.on("message", (message: string) => { ... })].  The loop reads
    [client.readyState] and then tests [client !== ws && ... === OPEN];
    the read has no effect, so reading it first changes nothing. *)
Definition onMessage (ws : Ref) (message : string) : Js unit :=
  console_log ("Received message: " ++ message) ;;
  cs <- clients ;;
  forEach cs (fun client =>
    st <- get_readyState client ;;
    if strict_neq client ws && ReadyState_eqb st OPEN
    then send client ("Broadcast: " ++ message)
    else ret tt).

(** [ws.on("close", () => { ... })] *)
Definition onClose (ws : Ref) : Js unit :=
  console_log "Client disconnected".

(** [ws.on("error", (error) => { ... })] *)
Definition onError (ws : Ref) (error : JsError) : Js unit :=
  console_error "WebSocket error:" error.

(** [wss.on("connection", (ws: WebSocket) => { ... })] *)
Definition onConnection (ws : Ref) : Js unit :=
  console_log "🔌 New client connected to WebSocket" ;;
  on ws EvMessage ;;
  on ws EvClose ;;
  on ws EvError ;;
  send ws welcome.

End Shipped.

(** ** The host: [JSON] and the clock

    [JSON_parse] is [None] where [JSON.parse] throws a [SyntaxError];
    [toISOString n] is the text of the [n]-th [new Date().toISOString()]
    evaluated since the server started. *)
Class Host := {
  JSON_parse : string -> option JsValue;
  JSON_stringify : JsValue -> string;
  toISOString : nat -> string
}.

(** Own property of an object built by [JSON.parse] or by an object literal. *)
Fixpoint own_property (key : string) (props : list (string * JsValue)) : JsValue :=
  match props with
  | [] => JUndefined
  | (k, v) :: rest => if String.eqb key k then v else own_property key rest
  end.

(** [value.key] for the keys the handlers read, [type] and [data]: a
    [TypeError] on [null] and [undefined], the own property of an object,
    [undefined] on every other value (no prototype defines these keys). *)
Definition get_property (value : JsValue) (key : string) : Js JsValue :=
  match value with
  | JUndefined | JNull => throw TypeError
  | JObject props => ret (own_property key props)
  | _ => ret JUndefined
  end.

(** [value === "label"], the comparison a [case "label":] makes. *)
Definition strict_eq_string (value : JsValue) (label : string) : bool :=
  match value with
  | JString s => String.eqb s label
  | _ => false
  end.

(** ** The [src/ws/handler.ts] written by the second script of [setup.sh] *)
Module Generated.
Section WithHost.
Context {host : Host}.

(** [JSON.parse(data.toString())] *)
Definition parse (data : string) : Js JsValue :=
  match JSON_parse data with
  | Some v => ret v
  | None => throw SyntaxError
  end.

(** [new Date().toISOString()] *)
Definition now : Js string :=
  fun w => (Normal (toISOString (date_reads w)), set_date_reads S w).

Definition welcome_message (timestamp : string) : JsValue :=
  JObject [("type", JString "welcome");
           ("message", JString "Connected to Patrick's Topshelf WebSocket server");
           ("timestamp", JString timestamp)].

Definition pong_message (timestamp : string) : JsValue :=
  JObject [("type", JString "pong"); ("timestamp", JString timestamp)].

Definition broadcast_message (data : JsValue) (timestamp : string) : JsValue :=
  JObject [("type", JString "broadcast");
           ("message", data);
           ("from", JString "server");
           ("timestamp", JString timestamp)].

Definition echo_message (message : JsValue) (timestamp : string) : JsValue :=
  JObject [("type", JString "echo");
           ("originalMessage", message);
           ("timestamp", JString timestamp);
           ("echo", JString ("Server received: " ++ JSON_stringify message))].

Definition error_message (timestamp : string) : JsValue :=
  JObject [("type", JString "error");
           ("message", JString "Invalid JSON format");
           ("timestamp", JString timestamp)].

(** The body of [case "broadcast":]. *)
Definition broadcast (ws : Ref) (message : JsValue) : Js unit :=
  cs <- clients ;;
  forEach cs (fun client =>
    st <- get_readyState client ;;
    if strict_neq client ws && ReadyState_eqb st OPEN
    then
      payload <- get_property message "data" ;;
      t <- now ;;
      send client (JSON_stringify (broadcast_message payload t))
    else ret tt).

(** [switch (message.type) { ... }] *)
Definition route (ws : Ref) (message : JsValue) : Js unit :=
  kind <- get_property message "type" ;;
  if strict_eq_string kind "ping" then
    t <- now ;;
    send ws (JSON_stringify (pong_message t))
  else if strict_eq_string kind "broadcast" then
    broadcast ws message
  else
    t <- now ;;
    send ws (JSON_stringify (echo_message message t)).

(** [ws.on("message", (data: Buffer) => { try { ... } catch (error) { ... } })] *)
Definition onMessage (ws : Ref) (data : string) : Js unit :=
  try_catch
    (message <- parse data ;;
     console_log_value "[WebSocket] Received:" message ;;
     route ws message)
    (fun error =>
       console_error "[WebSocket] Error parsing message:" error ;;
       t <- now ;;
       send ws (JSON_stringify (error_message t))).

(** [ws.on("close", (code: number, reason: Buffer) => { ... })] *)
Definition onClose (ws : Ref) (code : nat) (reason : string) : Js unit :=
  console_log ("[WebSocket] Connection closed: " ++ show_nat code ++ " - " ++ reason).

(** [ws.on("error", (error: Error) => { ... })] *)
Definition onError (ws : Ref) (error : JsError) : Js unit :=
  console_error "[WebSocket] Connection error:" error.

(** [wss.on("connection", (ws: WebSocket, req) => { ... })] *)
Definition onConnection (ws : Ref) (clientIP : string) : Js unit :=
  console_log ("[WebSocket] New connection from " ++ clientIP) ;;
  t <- now ;;
  send ws (JSON_stringify (welcome_message t)) ;;
  on ws EvMessage ;;
  on ws EvClose ;;
  on ws EvError.

End WithHost.
End Generated.

(** ** The REST routers *)
Module Routes.

Record Request := { url : string; query : list (string * string) }.

Record Response := { statusCode : nat; body : JsValue }.

(** [router.get("/health", ...)] of [src/api/routes.ts]:
    [res.status(200).json({ status: "UP" })]. *)
Definition health (req : Request) : Response :=
  {| statusCode := 200; body := JObject [("status", JString "UP")] |}.

(** [process.uptime()] and [process.env.NODE_ENV]. *)
Record Process := { uptime : Q; NODE_ENV : option string }.

(** [process.env.NODE_ENV || "development"] *)
Definition environment (p : Process) : string :=
  match NODE_ENV p with
  | Some EmptyString | None => "development"
  | Some e => e
  end.

(** [router.get("/status", ...)] of the [ROUTES_TS] template. *)
Definition status {host : Host} (p : Process) (req : Request) : Js Response :=
  t <- Generated.now ;;
  ret {| statusCode := 200;
         body := JObject [("status", JString "ok");
                          ("timestamp", JString t);
                          ("uptime", JNumber (uptime p));
                          ("environment", JString (environment p))] |}.

End Routes.

(** ** The server loop

    What the [ws] package does around the callbacks: a new socket is OPEN
    and in [wss.clients] when [connection] is emitted; an event of a socket
    reaches only a listener attached with [ws.on]; a closed socket is
    CLOSED and out of [wss.clients] when [close] is emitted; a failed
    socket is CLOSING when [error] is emitted.  Each callback runs to
    completion before the next event is looked at. *)
Inductive Event :=
| Connected (ws : Ref) (clientIP : string)
| Frame (ws : Ref) (data : string)
| Closed (ws : Ref) (code : nat) (reason : string)
| Failed (ws : Ref) (error : JsError).

Record Callbacks := {
  connection : Ref -> string -> Js unit;
  message : Ref -> string -> Js unit;
  close : Ref -> nat -> string -> Js unit;
  error : Ref -> JsError -> Js unit
}.

Definition has_listener (w : World) (ws : Ref) (ev : EventName) : bool :=
  existsb (fun h => Nat.eqb (fst h) ws && EventName_eqb (snd h) ev) (handlers w).

Definition listening (ws : Ref) (ev : EventName) : Js bool :=
  fun w => (Normal (has_listener w ws ev), w).

Definition accept (ws : Ref) : Js unit :=
  fun w => (Normal tt,
            set_readyState ws OPEN
              (set_clients (fun cs => if existsb (Nat.eqb ws) cs then cs else (cs ++ [ws])%list) w)).

Definition release (ws : Ref) : Js unit :=
  fun w => (Normal tt,
            set_readyState ws CLOSED
              (set_clients (filter (fun c => negb (Nat.eqb c ws))) w)).

Definition fail (ws : Ref) : Js unit :=
  fun w => (Normal tt, set_readyState ws CLOSING w).

Definition emit (cb : Callbacks) (e : Event) : Js unit :=
  match e with
  | Connected ws clientIP => accept ws ;; connection cb ws clientIP
  | Frame ws data =>
      l <- listening ws EvMessage ;;
      if l then message cb ws data else ret tt
  | Closed ws code reason =>
      release ws ;;
      l <- listening ws EvClose ;;
      if l then close cb ws code reason else ret tt
  | Failed ws err =>
      fail ws ;;
      l <- listening ws EvError ;;
      if l then error cb ws err else ret tt
  end.

Fixpoint run (cb : Callbacks) (events : list Event) : Js unit :=
  match events with
  | [] => ret tt
  | e :: rest => emit cb e ;; run cb rest
  end.

Definition shipped : Callbacks :=
  {| connection := fun ws _ => Shipped.onConnection ws;
     message := Shipped.onMessage;
     close := fun ws _ _ => Shipped.onClose ws;
     error := Shipped.onError |}.

Definition generated {host : Host} : Callbacks :=
  {| connection := Generated.onConnection;
     message := Generated.onMessage;
     close := Generated.onClose;
     error := Generated.onError |}.

Definition is_frame_of (ws : Ref) (e : Event) : bool :=
  match e with
  | Frame c _ => Nat.eqb c ws
  | _ => false
  end.

(** ** Vocabulary of the statements *)

(** The sockets a list of [send] calls addresses. *)
Definition recipients (calls : list (Ref * string)) : list Ref := map fst calls.

(** The data sent to one socket, oldest first. *)
Definition received (ws : Ref) (calls : list (Ref * string)) : list string :=
  map snd (filter (fun call => Nat.eqb (fst call) ws) calls).

(** The calls still waiting for a socket whose writer has stalled. *)
Definition pending (w : World) (ws : Ref) : nat := List.length (received ws (wire w)).

(** The sockets among [cs] that pass the guard of the fan-out loop,
    [client !== ws && client.readyState === WebSocket.OPEN]. *)
Definition broadcast_targets (w : World) (ws : Ref) (cs : list Ref) : list Ref :=
  filter (fun client => strict_neq client ws && ReadyState_eqb (readyState w client) OPEN) cs.

Definition open_others (w : World) (ws : Ref) : list Ref :=
  broadcast_targets w ws (wss_clients w).

(** [message.type] where it can be read without a [TypeError]. *)
Definition kind_of (message : JsValue) : JsValue :=
  match message with
  | JObject props => own_property "type" props
  | _ => JUndefined
  end.

(** [message.data], likewise. *)
Definition data_of (message : JsValue) : JsValue :=
  match message with
  | JObject props => own_property "data" props
  | _ => JUndefined
  end.

Definition nullish (v : JsValue) : bool :=
  match v with
  | JUndefined | JNull => true
  | _ => false
  end.

(** The [type] tag of a serialised reply. *)
Definition tagged {host : Host} (tag : string) (data : string) : Prop :=
  exists props, data = JSON_stringify (JObject props) /\
                own_property "type" props = JString tag.

(** The replies of the [broadcast] case: one clock reading per recipient. *)
Fixpoint stamped {host : Host} (payload : JsValue) (n : nat) (targets : list Ref)
  : list (Ref * string) :=
  match targets with
  | [] => []
  | c :: rest =>
      (c, JSON_stringify (Generated.broadcast_message payload (toISOString n)))
        :: stamped payload (S n) rest
  end.

(** A computation that only adds to the [send] calls already made. *)
Definition appends_only {A} (m : Js A) : Prop :=
  forall w, exists rest, wire (exec m w) = (wire w ++ rest)%list.

(** A [message] listener that answers every ping with one pong, on the
    sender only. *)
Definition answers_ping {host : Host} (onMessage : Ref -> string -> Js unit) : Prop :=
  forall (w : World) (ws : Ref) (data : string) (message : JsValue),
    JSON_parse data = Some message ->
    strict_eq_string (kind_of message) "ping" = true ->
    exists reply, sent_by (onMessage ws data) w = [(ws, reply)] /\ tagged "pong" reply.

(** A [message] listener that answers every frame that does not parse with
    one error message, on the sender only. *)
Definition reports_unparsable {host : Host} (onMessage : Ref -> string -> Js unit) : Prop :=
  forall (w : World) (ws : Ref) (data : string),
    JSON_parse data = None ->
    exists reply, sent_by (onMessage ws data) w = [(ws, reply)] /\ tagged "error" reply.

(** A [message] listener that answers every parsed message that is neither
    a ping nor a broadcast with one echo, on the sender only. *)
Definition echoes_other_kinds {host : Host} (onMessage : Ref -> string -> Js unit) : Prop :=
  forall (w : World) (ws : Ref) (data : string) (message : JsValue),
    JSON_parse data = Some message ->
    strict_eq_string (kind_of message) "ping" = false ->
    strict_eq_string (kind_of message) "broadcast" = false ->
    exists reply, sent_by (onMessage ws data) w = [(ws, reply)] /\ tagged "echo" reply.


(** Whether a character occurs in a text. *)
Fixpoint occurs (c : ascii) (s : string) : bool :=
  match s with
  | EmptyString => false
  | String x rest => Ascii.eqb x c || occurs c rest
  end.

(** A broadcast that reached every other registered socket, whatever its state. *)
Definition reaches_every_other_registered : Prop :=
  forall (w : World) (ws : Ref) (message : string) (client : Ref),
    In client (wss_clients w) -> client <> ws ->
    In client (recipients (sent_by (Shipped.onMessage ws message) w)).

(** A [send] with a bounded queue of capacity [cap]: at capacity the call
    fails and the socket leaves OPEN for CLOSING. *)
Definition queue_full_closes (cap : nat) : Prop :=
  forall (w : World) (client : Ref) (data : string),
    readyState w client = OPEN -> cap <= pending w client ->
    (exists e, outcome (send client data) w = Throw e) /\
    readyState (exec (send client data) w) client = CLOSING.

(** A health reply from which the number of connections can be read. *)
Definition health_reports_connection_count : Prop :=
  exists count_of : Routes.Response -> nat,
    forall (w : World) (req : Routes.Request),
      count_of (Routes.health req) = List.length (wss_clients w).

(** ** A host for the examples

    [JSON.parse] on the frames of the scenarios ([None] elsewhere, as for
    the text [not json]), a serialiser without escapes that prints the
    numerator of a number, and a clock that shows the number of the
    reading. *)
Definition dq : string := String "034"%char EmptyString.

Definition quoted (s : string) : string := dq ++ s ++ dq.

Definition ping_frame : string := "{" ++ quoted "type" ++ ":" ++ quoted "ping" ++ "}".

Definition broadcast_frame : string :=
  "{" ++ quoted "type" ++ ":" ++ quoted "broadcast" ++ ","
      ++ quoted "data" ++ ":" ++ quoted "hi" ++ "}".

Definition chat_frame : string := "{" ++ quoted "type" ++ ":" ++ quoted "chat" ++ "}".

Definition sample_parse (text : string) : option JsValue :=
  if String.eqb text ping_frame then Some (JObject [("type", JString "ping")])
  else if String.eqb text broadcast_frame
       then Some (JObject [("type", JString "broadcast"); ("data", JString "hi")])
  else if String.eqb text chat_frame then Some (JObject [("type", JString "chat")])
  else if String.eqb text "null" then Some JNull
  else if String.eqb text "42" then Some (JNumber (42 # 1))
  else None.

Definition show_Z (z : Z) : string := DecimalString.NilZero.string_of_int (Z.to_int z).

Fixpoint sample_stringify (v : JsValue) : string :=
  match v with
  | JUndefined => "undefined"
  | JNull => "null"
  | JBool true => "true"
  | JBool false => "false"
  | JNumber x => show_Z (Qnum x)
  | JString s => quoted s
  | JArray items =>
      "[" ++ String.concat ","
               ((fix elements (l : list JsValue) : list string :=
                   match l with
                   | [] => []
                   | JUndefined :: rest => "null" :: elements rest
                   | x :: rest => sample_stringify x :: elements rest
                   end) items) ++ "]"
  | JObject props =>
      "{" ++ String.concat ","
               ((fix members (l : list (string * JsValue)) : list string :=
                   match l with
                   | [] => []
                   | (_, JUndefined) :: rest => members rest
                   | (k, x) :: rest =>
                       (quoted k ++ ":" ++ sample_stringify x) :: members rest
                   end) props) ++ "}"
  end.

Definition sample_clock (n : nat) : string := "T" ++ show_nat n.

Definition sample_host : Host :=
  {| JSON_parse := sample_parse;
     JSON_stringify := sample_stringify;
     toISOString := sample_clock |}.

(** Three sockets: 1 and 2 are OPEN, 3 is CLOSING and still in [wss.clients]. *)
Definition sample_world : World :=
  {| wss_clients := [1; 2; 3];
     readyState := fun r => if Nat.eqb r 3 then CLOSING else OPEN;
     handlers := [(1, EvMessage); (2, EvMessage); (3, EvMessage)];
     wire := [];
     console := [];
     date_reads := 0 |}.

(** Sockets A, B, C of the scenarios, all OPEN. *)
Definition scenario_world : World :=
  {| wss_clients := [1; 2; 3];
     readyState := fun _ => OPEN;
     handlers := [(1, EvMessage); (2, EvMessage); (3, EvMessage)];
     wire := [];
     console := [];
     date_reads := 0 |}.

(** A computation that never ends in an exception. *)
Definition returns {A} (m : Js A) : Prop :=
  forall w, exists a, outcome m w = Normal a.

(** A computation that leaves [wss.clients] and every [readyState] alone. *)
Definition keeps_sockets {A} (m : Js A) : Prop :=
  forall w, wss_clients (exec m w) = wss_clients w /\ readyState (exec m w) = readyState w.

(** ** The second scaffolding script of [setup.sh]: writing files

    The file system is the regular files by path; [stdout] is what the
    [log_*] helpers were called with, oldest first.  Redirections and [cp]
    are taken to succeed (the script creates its directories first), and
    paths are the script's own relative paths. *)
Module Setup.

Definition newline : string := String "010"%char EmptyString.

Inductive Level := INFO | SUCCESS | WARNING | ERROR | SKIP.

Record Shell := mkShell {
  files : string -> option string;
  stdout : list (Level * string)
}.

Definition log (level : Level) (text : string) (s : Shell) : Shell :=
  mkShell (files s) (stdout s ++ [(level, text)])%list.

(** [... > "$file"] and the target of [cp]. *)
Definition write (file data : string) (s : Shell) : Shell :=
  mkShell (fun p => if String.eqb p file then Some data else files s p) (stdout s).

(** The letters [n], [e], [E] that bash's [echo] takes as options. *)
Fixpoint echo_flags (s : string) : bool :=
  match s with
  | EmptyString => true
  | String c rest =>
      (Ascii.eqb c "n" || Ascii.eqb c "e" || Ascii.eqb c "E") && echo_flags rest
  end.

Fixpoint mentions_n (s : string) : bool :=
  match s with
  | EmptyString => false
  | String c rest => Ascii.eqb c "n" || mentions_n rest
  end.

(** What [echo "$content"] prints: the content and a newline, unless the
    content is itself an option word such as [-n] or [-e]. *)
Definition echo (content : string) : string :=
  match content with
  | String "-" (String c rest) =>
      if echo_flags (String c rest)
      then (if mentions_n (String c rest) then "" else newline)
      else content ++ newline
  | _ => content ++ newline
  end.

(** ["${file}.backup.$(date +%Y%m%d_%H%M%S)"], [stamp] being what [date] printed. *)
Definition backup_path (file stamp : string) : string := file ++ ".backup." ++ stamp.

(** [backup_if_different file new_content]: [true] is [return 0] (go on and
    write), [false] is [return 1] (skip). *)
Definition backup_if_different (stamp file new_content : string) (s : Shell)
  : bool * Shell :=
  match files s file with
  | Some old =>
      if negb (String.eqb old (echo new_content))
      then (true,
            write (backup_path file stamp) old
              (log WARNING ("File " ++ file ++ " exists and differs. Backing up to "
                                    ++ backup_path file stamp) s))
      else (false, s)
  | None => (true, s)
  end.

(** [create_file file content description] *)
Definition create_file (stamp file content description : string) (s : Shell) : Shell :=
  let (proceed, s1) := backup_if_different stamp file content s in
  if proceed
  then log SUCCESS ("Created/Updated: " ++ file ++ " (" ++ description ++ ")")
           (write file (echo content) s1)
  else log SKIP ("File unchanged: " ++ file ++ " (" ++ description ++ ")") s1.



End Setup.

(** A scaffold with a [.gitignore] of the user's and an old [package.json]. *)
Definition sample_shell : Setup.Shell :=
  Setup.mkShell
    (fun p => if String.eqb p ".gitignore" then Some ("node_modules/" ++ Setup.newline)
              else if String.eqb p "package.json" then Some ("{}" ++ Setup.newline)
              else None)
    [].

(** * Properties *)

Local Open Scope list_scope.

Example shipped_scenario :
  sent_by (Shipped.onMessage 1 "hi") scenario_world
  = [(2, "Broadcast: hi"); (3, "Broadcast: hi")].
Proof. reflexivity. Qed.

Example generated_scenario_ping :
  sent_by (Generated.onMessage (host := sample_host) 1 ping_frame) scenario_world
  = [(1, ("{" ++ quoted "type" ++ ":" ++ quoted "pong" ++ ","
            ++ quoted "timestamp" ++ ":" ++ quoted "T0" ++ "}")%string)].
Proof. reflexivity. Qed.

Example generated_scenario_broadcast :
  sent_by (Generated.onMessage (host := sample_host) 1 broadcast_frame) scenario_world
  = [(2, sample_stringify (Generated.broadcast_message (JString "hi") "T0"));
     (3, sample_stringify (Generated.broadcast_message (JString "hi") "T1"))].
Proof. reflexivity. Qed.

Example generated_scenario_not_json :
  Generated.onMessage (host := sample_host) 1 "not json" scenario_world
  = (Normal tt,
     mkWorld [1; 2; 3] (fun _ => OPEN) (handlers scenario_world)
       [(1, sample_stringify (Generated.error_message "T0"))]
       [LogError "[WebSocket] Error parsing message:" SyntaxError] 1).
Proof. reflexivity. Qed.

Example generated_scenario_number :
  sent_by (Generated.onMessage (host := sample_host) 1 "42") scenario_world
  = [(1, sample_stringify
           (Generated.echo_message (host := sample_host) (JNumber (42 # 1)) "T0"))].
Proof. reflexivity. Qed.

Example shipped_scenario_ping :
  sent_by (Shipped.onMessage 1 ping_frame) scenario_world
  = [(2, ("Broadcast: " ++ ping_frame)%string); (3, ("Broadcast: " ++ ping_frame)%string)].
Proof. reflexivity. Qed.

Example shipped_run :
  wire (exec (run shipped [Connected 4 "10.0.0.4"; Frame 4 "hi"; Closed 4 1000 ""; Frame 1 "x"])
             scenario_world)
  = [(4, Shipped.welcome);
     (1, "Broadcast: hi"); (2, "Broadcast: hi"); (3, "Broadcast: hi");
     (2, "Broadcast: x"); (3, "Broadcast: x")].
Proof. reflexivity. Qed.

(** ** The store under the primitives *)

Lemma set_wire_app_nil (w : World) : set_wire (fun q => q ++ []) w = w.
Proof. destruct w; unfold set_wire; simpl; now rewrite app_nil_r. Qed.

Lemma skipn_length_app {A} (l r : list A) : skipn (List.length l) (l ++ r) = r.
Proof. induction l; simpl; auto. Qed.

Lemma received_app (ws : Ref) (l r : list (Ref * string)) :
  received ws (l ++ r) = received ws l ++ received ws r.
Proof. unfold received. now rewrite filter_app, map_app. Qed.

Lemma strict_neq_true (a b : Ref) : strict_neq a b = true <-> a <> b.
Proof.
  unfold strict_neq. rewrite negb_true_iff, Nat.eqb_neq. tauto.
Qed.

Lemma ReadyState_eqb_eq (a b : ReadyState) : ReadyState_eqb a b = true <-> a = b.
Proof. destruct a, b; simpl; split; congruence. Qed.

Lemma open_others_In (w : World) (ws client : Ref) :
  In client (open_others w ws) <->
  In client (wss_clients w) /\ client <> ws /\ readyState w client = OPEN.
Proof.
  unfold open_others, broadcast_targets. rewrite filter_In, andb_true_iff, strict_neq_true, ReadyState_eqb_eq.
  tauto.
Qed.

(** ** The fan-out loop of the checked-in handler *)

Lemma forEach_shipped (ws : Ref) (payload : string) (cs : list Ref) (w : World) :
  forEach cs (fun client =>
      st <- get_readyState client ;;
      if strict_neq client ws && ReadyState_eqb st OPEN
      then send client payload
      else ret tt) w
  = (Normal tt,
     set_wire (fun q => q ++ map (fun c => (c, payload))
                 (filter (fun client => strict_neq client ws
                                        && ReadyState_eqb (readyState w client) OPEN) cs)) w).
Proof.
  revert w. induction cs as [|c cs IH]; intro w.
  - simpl. unfold ret. now rewrite set_wire_app_nil.
  - cbn [forEach]. unfold bind at 1. unfold bind at 1. unfold get_readyState at 1.
    cbn [filter].
    destruct (strict_neq c ws && ReadyState_eqb (readyState w c) OPEN).
    + unfold send at 1. rewrite IH. f_equal.
      destruct w; unfold set_wire; cbn. now rewrite <- app_assoc.
    + unfold ret at 1. apply IH.
Qed.

Lemma Shipped_onMessage_run (ws : Ref) (message : string) (w : World) :
  Shipped.onMessage ws message w
  = (Normal tt,
     set_wire (fun q => q ++ map (fun c => (c, ("Broadcast: " ++ message)%string))
                                 (open_others w ws))
       (set_console (fun c => c ++ [Log ("Received message: " ++ message)%string]) w)).
Proof.
  unfold Shipped.onMessage, bind at 1, console_log, bind at 1, clients.
  rewrite forEach_shipped. reflexivity.
Qed.

Lemma Shipped_onMessage_sent (ws : Ref) (message : string) (w : World) :
  sent_by (Shipped.onMessage ws message) w
  = map (fun c => (c, ("Broadcast: " ++ message)%string)) (open_others w ws).
Proof.
  unfold sent_by, exec. rewrite Shipped_onMessage_run. cbn.
  apply skipn_length_app.
Qed.

(** ** The dispatcher of the generated handler *)
Section GeneratedRuns.
Context {host : Host}.

Lemma forEach_generated (ws : Ref) (props : list (string * JsValue))
      (cs : list Ref) (w : World) :
  forEach cs (fun client =>
      st <- get_readyState client ;;
      if strict_neq client ws && ReadyState_eqb st OPEN
      then
        payload <- get_property (JObject props) "data" ;;
        t <- Generated.now ;;
        send client (JSON_stringify (Generated.broadcast_message payload t))
      else ret tt) w
  = (Normal tt,
     set_date_reads (fun n => n + List.length (broadcast_targets w ws cs))
       (set_wire (fun q => q ++ stamped (own_property "data" props) (date_reads w)
                                        (broadcast_targets w ws cs)) w)).
Proof.
  revert w. induction cs as [|c cs IH]; intro w.
  - destruct w; cbn. unfold ret, set_date_reads, set_wire; cbn.
    now rewrite app_nil_r, Nat.add_0_r.
  - cbn [forEach]. unfold bind at 1. unfold bind at 1. unfold get_readyState at 1.
    unfold broadcast_targets in *. cbn [filter].
    destruct (strict_neq c ws && ReadyState_eqb (readyState w c) OPEN).
    + unfold bind at 1. cbn [get_property ret]. unfold bind at 1.
      unfold Generated.now at 1. unfold send at 1. rewrite IH.
      destruct w; unfold set_date_reads, set_wire; cbn.
      rewrite <- app_assoc. cbn. now rewrite Nat.add_succ_r.
    + unfold ret at 1. apply IH.
Qed.

(** A frame that [JSON.parse] rejects. *)
Lemma onMessage_unparsable (ws : Ref) (data : string) (w : World) :
  JSON_parse data = None ->
  Generated.onMessage ws data w
  = (Normal tt,
     set_wire (fun q => q ++ [(ws, JSON_stringify
                                     (Generated.error_message (toISOString (date_reads w))))])
       (set_date_reads S
          (set_console
             (fun c => c ++ [LogError "[WebSocket] Error parsing message:" SyntaxError]) w))).
Proof.
  intro H. unfold Generated.onMessage, try_catch, bind, Generated.parse.
  rewrite H. reflexivity.
Qed.

(** The frame [null]: [message.type] throws inside the [try]. *)
Lemma onMessage_null (ws : Ref) (data : string) (w : World) :
  JSON_parse data = Some JNull ->
  sent_by (Generated.onMessage ws data) w
  = [(ws, JSON_stringify (Generated.error_message (toISOString (date_reads w))))].
Proof.
  intro H. unfold sent_by, exec, Generated.onMessage, try_catch, bind, Generated.parse.
  rewrite H. cbn. apply skipn_length_app.
Qed.

Lemma onMessage_ping (ws : Ref) (data : string) (message : JsValue) (w : World) :
  JSON_parse data = Some message ->
  strict_eq_string (kind_of message) "ping" = true ->
  Generated.onMessage ws data w
  = (Normal tt,
     set_wire (fun q => q ++ [(ws, JSON_stringify
                                     (Generated.pong_message (toISOString (date_reads w))))])
       (set_date_reads S
          (set_console (fun c => c ++ [LogValue "[WebSocket] Received:" message]) w))).
Proof.
  intros H K.
  unfold Generated.onMessage, try_catch, bind at 1, Generated.parse. rewrite H.
  destruct message; try discriminate K. cbn in K.
  unfold ret at 1, bind at 1, console_log_value at 1, Generated.route, bind at 1.
  cbn [get_property ret]. rewrite K. reflexivity.
Qed.

Lemma onMessage_default (ws : Ref) (data : string) (message : JsValue) (w : World) :
  JSON_parse data = Some message ->
  nullish message = false ->
  strict_eq_string (kind_of message) "ping" = false ->
  strict_eq_string (kind_of message) "broadcast" = false ->
  Generated.onMessage ws data w
  = (Normal tt,
     set_wire (fun q => q ++ [(ws, JSON_stringify
                                     (Generated.echo_message message
                                        (toISOString (date_reads w))))])
       (set_date_reads S
          (set_console (fun c => c ++ [LogValue "[WebSocket] Received:" message]) w))).
Proof.
  intros H N P B.
  unfold Generated.onMessage, try_catch, bind at 1, Generated.parse. rewrite H.
  unfold ret at 1, bind at 1, console_log_value at 1, Generated.route, bind at 1.
  destruct message; try discriminate N; cbn [get_property ret];
    try reflexivity.
  cbn in P, B. rewrite P, B. reflexivity.
Qed.

Lemma onMessage_broadcast (ws : Ref) (data : string) (message : JsValue) (w : World) :
  JSON_parse data = Some message ->
  strict_eq_string (kind_of message) "broadcast" = true ->
  Generated.onMessage ws data w
  = (Normal tt,
     set_date_reads (fun n => n + List.length (open_others w ws))
       (set_wire (fun q => q ++ stamped (data_of message) (date_reads w) (open_others w ws))
          (set_console (fun c => c ++ [LogValue "[WebSocket] Received:" message]) w))).
Proof.
  intros H K.
  unfold Generated.onMessage, try_catch, bind at 1, Generated.parse. rewrite H.
  destruct message; try discriminate K. cbn in K.
  unfold ret at 1, bind at 1, console_log_value at 1, Generated.route, bind at 1.
  cbn [get_property ret].
  assert (P : strict_eq_string (own_property "type" props) "ping" = false).
  { destruct (own_property "type" props); try reflexivity. cbn in *.
    apply String.eqb_eq in K. subst s. reflexivity. }
  rewrite P, K. unfold Generated.broadcast, bind at 1, clients.
  rewrite forEach_generated. reflexivity.
Qed.

Lemma stamped_recipients (payload : JsValue) (n : nat) (targets : list Ref) :
  recipients (stamped payload n targets) = targets.
Proof.
  revert n. induction targets as [|c cs IH]; intro n; cbn; [reflexivity|].
  f_equal. apply IH.
Qed.

Lemma stamped_received (payload : JsValue) (client : Ref) (targets : list Ref) :
  NoDup targets -> In client targets ->
  forall n, exists k,
    received client (stamped payload n targets)
    = [JSON_stringify (Generated.broadcast_message payload (toISOString (n + k)))].
Proof.
  induction 1 as [|c cs Hc Hnd IH]; intros Hin n; [contradiction|].
  cbn [stamped]. unfold received. cbn [filter fst]. destruct Hin as [->|Hin].
  - rewrite Nat.eqb_refl. exists 0. cbn [map snd]. rewrite Nat.add_0_r. f_equal.
    change (received client (stamped payload (S n) cs) = []).
    assert (G : forall m, received client (stamped payload m cs) = []).
    { clear IH Hnd. induction cs as [|d ds IHd]; intro m; [reflexivity|].
      cbn [stamped]. unfold received. cbn [filter fst].
      destruct (Nat.eqb d client) eqn:E.
      - apply Nat.eqb_eq in E. subst d. exfalso. apply Hc. now left.
      - apply IHd. intro X. apply Hc. now right. }
    apply G.
  - destruct (Nat.eqb c client) eqn:E.
    + apply Nat.eqb_eq in E. subst c. contradiction.
    + destruct (IH Hin (S n)) as [k Hk]. exists (S k).
      rewrite Nat.add_succ_r. exact Hk.
Qed.

End GeneratedRuns.

(** ** What one socket receives from a fan-out *)

Lemma fanout_recipients (payload : string) (targets : list Ref) :
  recipients (map (fun c => (c, payload)) targets) = targets.
Proof.
  unfold recipients. rewrite map_map. cbn. apply map_id.
Qed.

Lemma fanout_received_absent (payload : string) (client : Ref) (targets : list Ref) :
  ~ In client targets ->
  received client (map (fun c => (c, payload)) targets) = [].
Proof.
  induction targets as [|c cs IH]; intro H; [reflexivity|].
  unfold received. cbn [map filter fst].
  destruct (Nat.eqb c client) eqn:E.
  - apply Nat.eqb_eq in E. subst c. exfalso. apply H. now left.
  - apply IH. intro X. apply H. now right.
Qed.

Lemma fanout_received (payload : string) (client : Ref) (targets : list Ref) :
  NoDup targets -> In client targets ->
  received client (map (fun c => (c, payload)) targets) = [payload].
Proof.
  induction 1 as [|c cs Hc Hnd IH]; intro Hin; [contradiction|].
  unfold received. cbn [map filter fst]. destruct Hin as [->|Hin].
  - rewrite Nat.eqb_refl. cbn [map snd]. f_equal.
    now apply fanout_received_absent.
  - destruct (Nat.eqb c client) eqn:E.
    + apply Nat.eqb_eq in E. subst c. contradiction.
    + now apply IH.
Qed.

Lemma open_others_NoDup (w : World) (ws : Ref) :
  NoDup (wss_clients w) -> NoDup (open_others w ws).
Proof. intro H. unfold open_others, broadcast_targets. now apply NoDup_filter. Qed.

Lemma open_others_not_sender (w : World) (ws : Ref) : ~ In ws (open_others w ws).
Proof. rewrite open_others_In. tauto. Qed.

Lemma sent_by_run {A} (m : Js A) (w w' : World) (r : Completion A)
      (calls : list (Ref * string)) :
  m w = (r, w') -> wire w' = wire w ++ calls -> sent_by m w = calls.
Proof.
  intros H E. unfold sent_by, exec. rewrite H. cbn [snd]. rewrite E.
  apply skipn_length_app.
Qed.

Section Dispatch.
Context {host : Host}.

Lemma onMessage_broadcast_sent (ws : Ref) (data : string) (message : JsValue) (w : World) :
  JSON_parse data = Some message ->
  strict_eq_string (kind_of message) "broadcast" = true ->
  sent_by (Generated.onMessage ws data) w
  = stamped (data_of message) (date_reads w) (open_others w ws).
Proof.
  intros H K. eapply sent_by_run; [exact (onMessage_broadcast ws data message w H K)|reflexivity].
Qed.

(** C1 (amended): a broadcast from socket [ws] makes no [send] call on [ws]
    itself, and exactly one call, carrying the message, on every other
    socket of [wss.clients] whose [readyState] is OPEN: in the checked-in
    handler for every inbound text, in the generated handler for every
    frame of type [broadcast]. *)
Theorem broadcast_excludes_sender_reaches_open (w : World) (ws : Ref) :
  NoDup (wss_clients w) ->
  (forall message : string,
      let calls := sent_by (Shipped.onMessage ws message) w in
      ~ In ws (recipients calls) /\
      forall client, In client (wss_clients w) -> client <> ws ->
                     readyState w client = OPEN ->
                     received client calls = [("Broadcast: " ++ message)%string]) /\
  (forall (data : string) (message : JsValue),
      JSON_parse data = Some message ->
      strict_eq_string (kind_of message) "broadcast" = true ->
      let calls := sent_by (Generated.onMessage ws data) w in
      ~ In ws (recipients calls) /\
      forall client, In client (wss_clients w) -> client <> ws ->
                     readyState w client = OPEN ->
                     exists t, received client calls
                               = [JSON_stringify
                                    (Generated.broadcast_message (data_of message) t)]).
Proof.
  intro ND. split.
  - intros message calls. subst calls. rewrite Shipped_onMessage_sent. split.
    + rewrite fanout_recipients. apply open_others_not_sender.
    + intros client Hin Hne Hopen. apply fanout_received.
      * now apply open_others_NoDup.
      * apply open_others_In. auto.
  - intros data message H K calls. subst calls.
    rewrite (onMessage_broadcast_sent ws data message w H K). split.
    + rewrite stamped_recipients. apply open_others_not_sender.
    + intros client Hin Hne Hopen.
      destruct (stamped_received (data_of message) client (open_others w ws)
                  (open_others_NoDup w ws ND)
                  (proj2 (open_others_In w ws client) (conj Hin (conj Hne Hopen)))
                  (date_reads w)) as [k Hk].
      eexists. exact Hk.
Qed.

(** C2 (amended): in the generated handler a frame whose [type] is [ping]
    is answered with exactly one [send] call, on the socket that sent it,
    carrying a message whose [type] is [pong]; no call is made on any other
    socket.  The checked-in handler has no ping case: it sends the sender
    nothing and rebroadcasts the frame to the other OPEN sockets. *)
Theorem ping_is_answered_with_one_pong
        (w : World) (ws : Ref) (data : string) (message : JsValue) :
  JSON_parse data = Some message ->
  strict_eq_string (kind_of message) "ping" = true ->
  sent_by (Generated.onMessage ws data) w
  = [(ws, JSON_stringify (Generated.pong_message (toISOString (date_reads w))))] /\
  tagged "pong" (JSON_stringify (Generated.pong_message (toISOString (date_reads w)))) /\
  (forall other, other <> ws ->
                 received other (sent_by (Generated.onMessage ws data) w) = []) /\
  outcome (Generated.onMessage ws data) w = Normal tt /\
  received ws (sent_by (Shipped.onMessage ws data) w) = [] /\
  sent_by (Shipped.onMessage ws data) w
  = map (fun client => (client, ("Broadcast: " ++ data)%string)) (open_others w ws).
Proof.
  intros H K.
  assert (S : sent_by (Generated.onMessage ws data) w
              = [(ws, JSON_stringify (Generated.pong_message (toISOString (date_reads w))))]).
  { eapply sent_by_run; [exact (onMessage_ping ws data message w H K)|reflexivity]. }
  rewrite S, Shipped_onMessage_sent.
  split; [reflexivity|]. split; [|split; [|split; [|split]]].
  - eexists. split; reflexivity.
  - intros other Hne. unfold received. cbn [filter fst].
    destruct (Nat.eqb ws other) eqn:E; [|reflexivity].
    apply Nat.eqb_eq in E. congruence.
  - unfold outcome. now rewrite (onMessage_ping ws data message w H K).
  - apply fanout_received_absent, open_others_not_sender.
  - reflexivity.
Qed.

(** C3 (amended): in the generated handler a frame that [JSON.parse]
    rejects is answered with exactly one [send] call, on the socket that
    sent it, carrying the message of type [error] whose [message] is
    [Invalid JSON format]; the callback returns normally, every socket
    keeps its [readyState] (an OPEN sender stays OPEN) and [wss.clients] is
    as before.  The checked-in handler parses nothing: it sends the sender
    nothing and rebroadcasts the text to the other OPEN sockets. *)
Theorem unparsable_frame_is_reported_to_sender
        (w : World) (ws : Ref) (data : string) :
  JSON_parse data = None ->
  let reply := JSON_stringify (Generated.error_message (toISOString (date_reads w))) in
  let w' := exec (Generated.onMessage ws data) w in
  sent_by (Generated.onMessage ws data) w = [(ws, reply)] /\
  tagged "error" reply /\
  (forall other, other <> ws ->
                 received other (sent_by (Generated.onMessage ws data) w) = []) /\
  outcome (Generated.onMessage ws data) w = Normal tt /\
  readyState w' = readyState w /\
  (readyState w ws = OPEN -> readyState w' ws = OPEN) /\
  wss_clients w' = wss_clients w /\
  (exists props, reply = JSON_stringify (JObject props) /\
                 own_property "type" props = JString "error" /\
                 own_property "message" props = JString "Invalid JSON format") /\
  received ws (sent_by (Shipped.onMessage ws data) w) = [] /\
  sent_by (Shipped.onMessage ws data) w
  = map (fun client => (client, ("Broadcast: " ++ data)%string)) (open_others w ws).
Proof.
  intros H reply w'.
  assert (S : sent_by (Generated.onMessage ws data) w = [(ws, reply)]).
  { eapply sent_by_run; [exact (onMessage_unparsable ws data w H)|reflexivity]. }
  subst w'. unfold exec, outcome.
  rewrite S, (onMessage_unparsable ws data w H), Shipped_onMessage_sent.
  split; [reflexivity|]. split; [|split; [|split; [|split; [|split]]]].
  - eexists. split; reflexivity.
  - intros other Hne. unfold received. cbn [filter fst].
    destruct (Nat.eqb ws other) eqn:E; [|reflexivity].
    apply Nat.eqb_eq in E. congruence.
  - reflexivity.
  - reflexivity.
  - auto.
  - split; [reflexivity|]. split; [|split; [|reflexivity]].
    + eexists. split; [reflexivity|]. split; reflexivity.
    + apply fanout_received_absent, open_others_not_sender.
Qed.

(** C4 (amended): in the generated handler a frame that parses to a
    message other than [null] whose [type] is neither [ping] nor
    [broadcast] (an echo request, any other type, or no [type] at all) is
    answered with exactly one [send] call, on the socket that sent it,
    carrying a message of type [echo] whose [originalMessage] is the
    message received; no call is made on any other socket.  A frame that
    parses to [null] gets the [error] reply instead.  The checked-in
    handler echoes nothing: it sends the sender nothing and rebroadcasts
    the frame to the other OPEN sockets. *)
Theorem other_kinds_are_echoed_to_sender
        (w : World) (ws : Ref) (data : string) (message : JsValue) :
  JSON_parse data = Some message ->
  nullish message = false ->
  strict_eq_string (kind_of message) "ping" = false ->
  strict_eq_string (kind_of message) "broadcast" = false ->
  let reply := Generated.echo_message message (toISOString (date_reads w)) in
  sent_by (Generated.onMessage ws data) w = [(ws, JSON_stringify reply)] /\
  tagged "echo" (JSON_stringify reply) /\
  kind_of reply = JString "echo" /\
  (exists props, reply = JObject props /\ own_property "originalMessage" props = message) /\
  (forall other, other <> ws ->
                 received other (sent_by (Generated.onMessage ws data) w) = []) /\
  (forall frame, JSON_parse frame = Some JNull ->
                 sent_by (Generated.onMessage ws frame) w
                 = [(ws, JSON_stringify
                           (Generated.error_message (toISOString (date_reads w))))]) /\
  received ws (sent_by (Shipped.onMessage ws data) w) = [] /\
  sent_by (Shipped.onMessage ws data) w
  = map (fun client => (client, ("Broadcast: " ++ data)%string)) (open_others w ws).
Proof.
  intros H N P B reply.
  assert (S : sent_by (Generated.onMessage ws data) w = [(ws, JSON_stringify reply)]).
  { eapply sent_by_run; [exact (onMessage_default ws data message w H N P B)|reflexivity]. }
  rewrite S, Shipped_onMessage_sent.
  split; [reflexivity|]. split; [|split; [reflexivity|split; [|split; [|split; [|split]]]]].
  - eexists. split; reflexivity.
  - eexists. split; reflexivity.
  - intros other Hne. unfold received. cbn [filter fst].
    destruct (Nat.eqb ws other) eqn:E; [|reflexivity].
    apply Nat.eqb_eq in E. congruence.
  - intros frame F. now apply onMessage_null.
  - apply fanout_received_absent, open_others_not_sender.
  - reflexivity.
Qed.

End Dispatch.

(** ** The checked-in handler has no routing *)

(** C9: in the checked-in handler every inbound text, whatever it is, makes
    exactly these [send] calls: one on each socket of [wss.clients] other
    than the sender whose [readyState] is OPEN, in iteration order, each
    carrying [Broadcast: ] followed by the raw text.  The sender gets no
    reply (no pong, no echo, no error message) and nothing is parsed. *)
Theorem shipped_rebroadcasts_every_message (w : World) (ws : Ref) (message : string) :
  sent_by (Shipped.onMessage ws message) w
  = map (fun client => (client, ("Broadcast: " ++ message)%string)) (open_others w ws) /\
  (forall client, In client (open_others w ws) <->
                  In client (wss_clients w) /\ client <> ws /\ readyState w client = OPEN) /\
  received ws (sent_by (Shipped.onMessage ws message) w) = [] /\
  outcome (Shipped.onMessage ws message) w = Normal tt.
Proof.
  rewrite Shipped_onMessage_sent. split; [reflexivity|]. split; [|split].
  - intro client. apply open_others_In.
  - apply fanout_received_absent, open_others_not_sender.
  - unfold outcome. now rewrite Shipped_onMessage_run.
Qed.

(** C10: a socket whose [readyState] is not OPEN when the fan-out loop
    reaches it is skipped: the broadcast makes no [send] call on it, in the
    checked-in handler and in the [broadcast] case of the generated one. *)
Theorem fanout_skips_sockets_not_open
        {host : Host} (w : World) (ws client : Ref) :
  readyState w client <> OPEN ->
  (forall message : string,
      ~ In client (recipients (sent_by (Shipped.onMessage ws message) w))) /\
  (forall (data : string) (message : JsValue),
      JSON_parse data = Some message ->
      strict_eq_string (kind_of message) "broadcast" = true ->
      ~ In client (recipients (sent_by (Generated.onMessage ws data) w))).
Proof.
  intro Hst. split.
  - intro message. rewrite Shipped_onMessage_sent, fanout_recipients, open_others_In.
    tauto.
  - intros data message H K.
    rewrite (onMessage_broadcast_sent ws data message w H K), stamped_recipients,
      open_others_In.
    tauto.
Qed.

(** ** The REST routes *)

(** C5 (amended): [/health] answers every request at once with status 200
    and the record [{ status: UP }], nothing else; [/status] of the template
    answers with [status], [timestamp], [uptime] and [environment].  Neither
    reply carries a connection count, and neither reads or changes
    [wss.clients], a [readyState] or the [send] calls. *)
Theorem health_reply_is_status_only
        {host : Host} (p : Routes.Process) (req : Routes.Request) (w : World) :
  Routes.health req
  = {| Routes.statusCode := 200; Routes.body := JObject [("status", JString "UP")] |} /\
  Routes.status p req w
  = (Normal {| Routes.statusCode := 200;
               Routes.body :=
                 JObject [("status", JString "ok");
                          ("timestamp", JString (toISOString (date_reads w)));
                          ("uptime", JNumber (Routes.uptime p));
                          ("environment", JString (Routes.environment p))] |},
     set_date_reads S w) /\
  (forall (cs : list Ref) (st : Ref -> ReadyState) (q : list (Ref * string)),
      outcome (Routes.status p req)
              (mkWorld cs st (handlers w) q (console w) (date_reads w))
      = outcome (Routes.status p req) w).
Proof.
  split; [reflexivity|]. split; reflexivity.
Qed.

(** ** Sending *)

(** C6 (amended): [send] returns normally whatever is already pending for
    the socket: the call is added to the socket's pending calls, no
    [readyState] changes, and what is pending for any other socket is as
    before.  The fan-out loop likewise returns normally, changes no
    [readyState], and adds its calls on the other OPEN sockets whatever is
    pending for any of them. *)
Theorem send_never_fails_nor_closes
        (w : World) (client : Ref) (data : string) (ws : Ref) (message : string) :
  let w1 := exec (send client data) w in
  let w2 := exec (Shipped.onMessage ws message) w in
  (outcome (send client data) w = Normal tt /\
   readyState w1 = readyState w /\
   wss_clients w1 = wss_clients w /\
   pending w1 client = S (pending w client) /\
   (forall other, other <> client -> received other (wire w1) = received other (wire w))) /\
  (outcome (Shipped.onMessage ws message) w = Normal tt /\
   readyState w2 = readyState w /\
   wss_clients w2 = wss_clients w /\
   wire w2 = wire w ++ map (fun c => (c, ("Broadcast: " ++ message)%string))
                           (open_others w ws)).
Proof.
  intros w1 w2. split.
  - subst w1. unfold exec, outcome, send, pending.
    cbn [fst snd set_wire wire readyState wss_clients].
    split; [reflexivity|]. split; [reflexivity|]. split; [reflexivity|]. split.
    + rewrite received_app, length_app. unfold received at 2.
      cbn [filter fst]. rewrite Nat.eqb_refl. cbn. lia.
    + intros other Hne. rewrite received_app. unfold received at 2.
      cbn [filter fst].
      destruct (Nat.eqb client other) eqn:E.
      * apply Nat.eqb_eq in E. congruence.
      * cbn. apply app_nil_r.
  - subst w2. unfold exec, outcome. rewrite Shipped_onMessage_run.
    repeat split.
Qed.

(** ** Closing *)




(** ** The [send] calls made so far are never taken back *)

Lemma appends_only_bind {A B} (m : Js A) (k : A -> Js B) :
  appends_only m -> (forall a, appends_only (k a)) -> appends_only (bind m k).
Proof.
  intros Hm Hk w. unfold exec, bind. specialize (Hm w). unfold exec in Hm.
  destruct (m w) as [[a|e] w1]; cbn [snd] in *.
  - destruct Hm as [r1 E1]. destruct (Hk a w1) as [r2 E2]. unfold exec in E2.
    exists (r1 ++ r2). rewrite E2, E1. now rewrite app_assoc.
  - exact Hm.
Qed.

Lemma appends_only_try_catch {A} (body : Js A) (handler : JsError -> Js A) :
  appends_only body -> (forall e, appends_only (handler e)) ->
  appends_only (try_catch body handler).
Proof.
  intros Hb Hh w. unfold exec, try_catch. specialize (Hb w). unfold exec in Hb.
  destruct (body w) as [[a|e] w1]; cbn [snd] in *.
  - exact Hb.
  - destruct Hb as [r1 E1]. destruct (Hh e w1) as [r2 E2]. unfold exec in E2.
    exists (r1 ++ r2). rewrite E2, E1. now rewrite app_assoc.
Qed.

Lemma appends_only_still {A} (m : Js A) :
  (forall w, wire (exec m w) = wire w) -> appends_only m.
Proof. intros H w. exists []. rewrite H. now rewrite app_nil_r. Qed.

Lemma appends_only_send (ws : Ref) (data : string) : appends_only (send ws data).
Proof. intro w. now exists [(ws, data)]. Qed.

Lemma appends_only_forEach (cs : list Ref) (callback : Ref -> Js unit) :
  (forall c, appends_only (callback c)) -> appends_only (forEach cs callback).
Proof.
  intro H. induction cs as [|c cs IH]; cbn [forEach].
  - now apply appends_only_still.
  - apply appends_only_bind; auto.
Qed.

Ltac wire_step :=
  first
    [ apply appends_only_send
    | apply appends_only_bind; [|intro]
    | apply appends_only_try_catch; [|intro]
    | apply appends_only_forEach; intro
    | (apply appends_only_still; intro; reflexivity)
    | match goal with
      | |- appends_only (if ?b then _ else _) => destruct b
      | |- appends_only (match ?x with _ => _ end) => destruct x
      end ].

Ltac wire_only := repeat wire_step.

Lemma shipped_appends_only (e : Event) : appends_only (emit shipped e).
Proof.
  destruct e; cbn [emit shipped connection message close error];
    unfold Shipped.onConnection, Shipped.onMessage, Shipped.onClose, Shipped.onError;
    wire_only.
Qed.

Lemma generated_appends_only {host : Host} (e : Event) : appends_only (emit generated e).
Proof.
  destruct e; cbn [emit generated connection message close error];
    unfold Generated.onConnection, Generated.onMessage, Generated.onClose,
      Generated.onError, Generated.route, Generated.broadcast, Generated.parse,
      get_property;
    wire_only.
Qed.

Lemma run_appends_only (cb : Callbacks) (events : list Event) :
  (forall e, appends_only (emit cb e)) -> appends_only (run cb events).
Proof.
  intro H. induction events as [|e es IH]; cbn [run].
  - now apply appends_only_still.
  - apply appends_only_bind; auto.
Qed.

Lemma run_app (cb : Callbacks) (before after : list Event) (w : World) :
  run cb (before ++ after) w
  = match run cb before w with
    | (Normal _, w') => run cb after w'
    | (Throw e, w') => (Throw e, w')
    end.
Proof.
  revert w. induction before as [|e es IH]; intro w; cbn [app run].
  - reflexivity.
  - unfold bind. destruct (emit cb e w) as [[[]|x] w1]; [apply IH|reflexivity].
Qed.

(** Frames of a socket that has no [message] listener reach no callback. *)
Lemma frames_without_listener_are_dropped
      (cb : Callbacks) (ws : Ref) (frames : list Event) (w : World) :
  has_listener w ws EvMessage = false ->
  forallb (is_frame_of ws) frames = true ->
  run cb frames w = (Normal tt, w).
Proof.
  intros L. induction frames as [|e es IH]; intro F; cbn [run]; [reflexivity|].
  cbn [forallb] in F. apply andb_true_iff in F. destruct F as [Fe Fes].
  destruct e; try discriminate Fe. cbn in Fe. apply Nat.eqb_eq in Fe. subst ws0.
  unfold bind at 1. cbn [emit]. unfold bind at 1, listening. rewrite L.
  unfold ret at 1. now apply IH.
Qed.

Lemma connected_then_rest
      (cb : Callbacks) (ws : Ref) (clientIP greeting : string)
      (before after : list Event) (w w1 : World) :
  (forall e, appends_only (emit cb e)) ->
  run cb before w = (Normal tt, w) ->
  emit cb (Connected ws clientIP) w = (Normal tt, w1) ->
  wire w1 = wire w ++ [(ws, greeting)] ->
  exists rest,
    wire (exec (run cb (before ++ Connected ws clientIP :: after)) w)
    = wire w ++ (ws, greeting) :: rest.
Proof.
  intros G B E W. unfold exec. rewrite run_app, B. cbn [run]. unfold bind. rewrite E.
  destruct (run_appends_only cb after G w1) as [rest R]. unfold exec in R.
  exists rest. rewrite R, W, <- app_assoc. reflexivity.
Qed.

(** ** Connecting *)

(** C8: the [connection] callback makes exactly one [send] call, on the
    new socket, carrying the welcome message (the fixed text in the
    checked-in handler, the message of type [welcome] in the generated one).
    In every run of the server, frames of that socket that come before its
    [connection] event reach no listener, so the welcome is the first
    [send] call made after the socket appears, ahead of anything an inbound
    message causes. *)
Theorem welcome_is_sent_first
        {host : Host} (w : World) (ws : Ref) (clientIP : string) :
  has_listener w ws EvMessage = false ->
  let greeting := JSON_stringify (Generated.welcome_message (toISOString (date_reads w))) in
  sent_by (Shipped.onConnection ws) w = [(ws, Shipped.welcome)] /\
  sent_by (Generated.onConnection ws clientIP) w = [(ws, greeting)] /\
  tagged "welcome" greeting /\
  forall before after : list Event,
    forallb (is_frame_of ws) before = true ->
    (exists rest,
        wire (exec (run shipped (before ++ Connected ws clientIP :: after)) w)
        = wire w ++ (ws, Shipped.welcome) :: rest) /\
    (exists rest,
        wire (exec (run generated (before ++ Connected ws clientIP :: after)) w)
        = wire w ++ (ws, greeting) :: rest).
Proof.
  intros L greeting. split; [|split; [|split]].
  - unfold sent_by, exec. cbn. apply skipn_length_app.
  - unfold sent_by, exec. cbn. apply skipn_length_app.
  - eexists. split; reflexivity.
  - intros before after F. split.
    + eapply connected_then_rest.
      * apply shipped_appends_only.
      * now apply frames_without_listener_are_dropped with (ws := ws).
      * reflexivity.
      * reflexivity.
    + eapply connected_then_rest.
      * apply generated_appends_only.
      * now apply frames_without_listener_are_dropped with (ws := ws).
      * reflexivity.
      * reflexivity.
Qed.

(** ** The claims that do not hold as written *)

(** C1 as written fails: socket 3 of [sample_world] is in [wss.clients] and
    is not the sender, but it is CLOSING and the broadcast skips it. *)
Lemma registered_closing_socket_is_skipped : ~ reaches_every_other_registered.
Proof.
  intro H.
  assert (R : In 3 (recipients (sent_by (Shipped.onMessage 1 "hi") sample_world))).
  { apply H; [cbn; tauto|discriminate]. }
  cbn in R. destruct R as [R|[]]. discriminate R.
Qed.

(** C5 as written fails: the [/health] reply is the same whatever the
    number of connections, so no count can be read from it. *)
Lemma health_has_no_connection_count : ~ health_reports_connection_count.
Proof.
  intros [count_of H].
  pose proof (H sample_world {| Routes.url := "/api/health"; Routes.query := [] |}) as H3.
  pose proof (H (set_clients (fun _ => []) sample_world)
                {| Routes.url := "/api/health"; Routes.query := [] |}) as H0.
  cbn in H3, H0. congruence.
Qed.

(** C6 as written fails for every capacity: a socket with that many calls
    pending takes one more, the call returns normally and the socket stays
    OPEN. *)
Lemma send_past_any_capacity_keeps_open : ~ exists cap, queue_full_closes cap.
Proof.
  intros [cap H].
  destruct (H (set_wire (fun _ => repeat (2, "Broadcast: hi"%string) cap) scenario_world)
              2 "Broadcast: hi"%string) as [_ C].
  - reflexivity.
  - unfold pending. cbn [wire set_wire].
    assert (E : forall n, List.length (received 2 (repeat (2, "Broadcast: hi"%string) n)) = n).
    { induction n as [|n IH]; [reflexivity|].
      unfold received in *. cbn [repeat filter fst Nat.eqb map List.length].
      now rewrite IH. }
    rewrite E. lia.
  - discriminate C.
Qed.

(** C2 as written fails on the checked-in handler: the ping frame of
    socket 1 is rebroadcast to sockets 2 and 3 and socket 1 gets no pong. *)
Lemma shipped_handler_sends_no_pong :
  ~ answers_ping (host := sample_host) Shipped.onMessage.
Proof.
  intro H.
  destruct (H scenario_world 1 ping_frame (JObject [("type", JString "ping")])
              eq_refl eq_refl) as [reply [S _]].
  cbv in S. discriminate S.
Qed.

(** C3 as written fails on the checked-in handler: the text [not json] of
    socket 1 is rebroadcast to sockets 2 and 3 and socket 1 gets no error
    message. *)
Lemma shipped_handler_reports_no_parse_failure :
  ~ reports_unparsable (host := sample_host) Shipped.onMessage.
Proof.
  intro H.
  destruct (H scenario_world 1 "not json"%string eq_refl) as [reply [S _]].
  cbv in S. discriminate S.
Qed.

Lemma occurs_append (c : ascii) (a b : string) :
  occurs c (a ++ b)%string = occurs c a || occurs c b.
Proof.
  induction a as [|x a IH]; cbn; [reflexivity|]. now rewrite IH, orb_assoc.
Qed.

Lemma occurs_concat (c : ascii) (sep x : string) (l : list string) :
  In x l -> occurs c x = true -> occurs c (String.concat sep l) = true.
Proof.
  induction l as [|y l IH]; intros I O; [contradiction|].
  cbn [String.concat]. destruct l as [|z l].
  - destruct I as [->|[]]. exact O.
  - rewrite occurs_append. destruct I as [->|I].
    + now rewrite O.
    + rewrite occurs_append, (IH I O). now rewrite !orb_true_r.
Qed.

(** In the example serialiser an object whose [type] is [echo] prints the
    letter [h]. *)
Lemma echo_tag_is_printed (props : list (string * JsValue)) :
  own_property "type" props = JString "echo" ->
  occurs "h" (sample_stringify (JObject props)) = true.
Proof.
  intro T. cbn [sample_stringify].
  set (members := fix members (l : list (string * JsValue)) : list string :=
                    match l with
                    | [] => []
                    | (_, JUndefined) :: rest => members rest
                    | (k, x) :: rest =>
                        (quoted k ++ ":" ++ sample_stringify x)%string :: members rest
                    end).
  assert (M : exists x, In x (members props) /\ occurs "h" x = true).
  { induction props as [|[k v] rest IH]; [discriminate T|].
    cbn [own_property] in T. destruct (String.eqb "type" k) eqn:K.
    - subst v. exists (quoted k ++ ":" ++ sample_stringify (JString "echo"))%string.
      split; [now left|]. rewrite !occurs_append. cbn. now rewrite !orb_true_r.
    - destruct (IH T) as [x [I O]]. exists x. split; [|exact O].
      destruct v; cbn [members]; try (now right); exact I. }
  destruct M as [x [I O]].
  rewrite !occurs_append, (occurs_concat "h" "," x _ I O). now rewrite !orb_true_r.
Qed.

(** C4 as written fails twice.  On the checked-in handler the frame of
    type [chat] is rebroadcast and its sender gets no echo.  On the
    generated handler the frame [null] parses, is neither a ping nor a
    broadcast, and is answered with the [error] message, not an echo. *)
Lemma chat_and_null_frames_are_not_echoed :
  ~ echoes_other_kinds (host := sample_host) Shipped.onMessage /\
  ~ echoes_other_kinds (host := sample_host) (Generated.onMessage (host := sample_host)).
Proof.
  split; intro H.
  - destruct (H scenario_world 1 chat_frame (JObject [("type", JString "chat")])
                eq_refl eq_refl eq_refl) as [reply [S _]].
    cbv in S. discriminate S.
  - destruct (H scenario_world 1 "null"%string JNull eq_refl eq_refl eq_refl)
      as [reply [S [props [E T]]]].
    assert (R : reply = sample_stringify (Generated.error_message "T0")).
    { rewrite (onMessage_null (host := sample_host) 1 "null" scenario_world eq_refl) in S.
      now injection S as <-. }
    apply echo_tag_is_printed in T. change (JSON_stringify (JObject props))
      with (sample_stringify (JObject props)) in E.
    rewrite <- E, R in T. vm_compute in T. discriminate T.
Qed.


(** ** The statements at the scenarios of the specification *)

Lemma broadcast_scenario :
  NoDup (wss_clients scenario_world) /\
  received 2 (sent_by (Shipped.onMessage 1 "hi") scenario_world) = ["Broadcast: hi"%string] /\
  exists t,
    received 3 (sent_by (Generated.onMessage (host := sample_host) 1 broadcast_frame)
                        scenario_world)
    = [sample_stringify (Generated.broadcast_message (JString "hi") t)].
Proof.
  assert (ND : NoDup (wss_clients scenario_world)).
  { cbn. repeat constructor; cbn; intuition discriminate. }
  destruct (broadcast_excludes_sender_reaches_open (host := sample_host)
              scenario_world 1 ND) as [S G].
  split; [exact ND|]. split.
  - apply (S "hi"%string); [cbn; tauto|discriminate|reflexivity].
  - apply (G broadcast_frame
             (JObject [("type", JString "broadcast"); ("data", JString "hi")])
             eq_refl eq_refl);
      [cbn; tauto|discriminate|reflexivity].
Defined.

Lemma ping_scenario :
  JSON_parse (Host := sample_host) ping_frame = Some (JObject [("type", JString "ping")]) /\
  sent_by (Generated.onMessage (host := sample_host) 1 ping_frame) scenario_world
  = [(1, sample_stringify (Generated.pong_message "T0"))].
Proof.
  split; [reflexivity|].
  exact (proj1 (ping_is_answered_with_one_pong (host := sample_host)
                  scenario_world 1 ping_frame
                  (JObject [("type", JString "ping")]) eq_refl eq_refl)).
Defined.

Lemma not_json_scenario :
  JSON_parse (Host := sample_host) "not json" = None /\
  sent_by (Generated.onMessage (host := sample_host) 1 "not json") scenario_world
  = [(1, sample_stringify (Generated.error_message "T0"))] /\
  readyState (exec (Generated.onMessage (host := sample_host) 1 "not json") scenario_world) 1
  = OPEN.
Proof.
  split; [reflexivity|].
  pose proof (unparsable_frame_is_reported_to_sender (host := sample_host)
                scenario_world 1 "not json"%string eq_refl) as H.
  cbv zeta in H. destruct H as [S [_ [_ [_ [_ [O _]]]]]].
  split; [exact S|]. apply O. reflexivity.
Defined.

Lemma chat_scenario :
  JSON_parse (Host := sample_host) chat_frame = Some (JObject [("type", JString "chat")]) /\
  sent_by (Generated.onMessage (host := sample_host) 1 chat_frame) scenario_world
  = [(1, sample_stringify
           (Generated.echo_message (host := sample_host)
              (JObject [("type", JString "chat")]) "T0"))].
Proof.
  split; [reflexivity|].
  exact (proj1 (other_kinds_are_echoed_to_sender (host := sample_host)
                  scenario_world 1 chat_frame
                  (JObject [("type", JString "chat")])
                  eq_refl eq_refl eq_refl eq_refl)).
Defined.

Lemma closing_socket_scenario :
  readyState sample_world 3 <> OPEN /\
  ~ In 3 (recipients (sent_by (Shipped.onMessage 1 "hi") sample_world)).
Proof.
  assert (C : readyState sample_world 3 <> OPEN) by discriminate.
  split; [exact C|].
  exact (proj1 (fanout_skips_sockets_not_open (host := sample_host) sample_world 1 3 C)
               "hi"%string).
Defined.

Lemma new_socket_scenario :
  has_listener scenario_world 4 EvMessage = false /\
  sent_by (Shipped.onConnection 4) scenario_world = [(4, Shipped.welcome)] /\
  exists rest,
    wire (exec (run shipped [Frame 4 "early"; Connected 4 "10.0.0.4"; Frame 4 "hi"])
               scenario_world)
    = (4, Shipped.welcome) :: rest.
Proof.
  split; [reflexivity|].
  pose proof (welcome_is_sent_first (host := sample_host) scenario_world 4
                "10.0.0.4"%string eq_refl) as H.
  cbv zeta in H. destruct H as [S [_ [_ T]]].
  split; [exact S|].
  exact (proj1 (T [Frame 4 "early"%string] [Frame 4 "hi"%string] eq_refl)).
Defined.

(** * Further properties of the handlers *)

(** ** Exceptions and the sockets *)

Lemma returns_bind {A B} (m : Js A) (k : A -> Js B) :
  returns m -> (forall a, returns (k a)) -> returns (bind m k).
Proof.
  intros Hm Hk w. unfold outcome, bind. destruct (Hm w) as [a Ha]. unfold outcome in Ha.
  destruct (m w) as [[a'|e] w1]; cbn [fst] in Ha; [|discriminate Ha].
  apply (Hk a' w1).
Qed.

Lemma returns_try_catch {A} (body : Js A) (handler : JsError -> Js A) :
  (forall e, returns (handler e)) -> returns (try_catch body handler).
Proof.
  intros Hh w. unfold outcome, try_catch.
  destruct (body w) as [[a|e] w1]; [now exists a|]. apply (Hh e w1).
Qed.

Lemma returns_forEach (cs : list Ref) (callback : Ref -> Js unit) :
  (forall c, returns (callback c)) -> returns (forEach cs callback).
Proof.
  intro H. induction cs as [|c cs IH]; cbn [forEach].
  - intro w. now exists tt.
  - apply returns_bind; auto.
Qed.

Lemma keeps_sockets_bind {A B} (m : Js A) (k : A -> Js B) :
  keeps_sockets m -> (forall a, keeps_sockets (k a)) -> keeps_sockets (bind m k).
Proof.
  intros Hm Hk w. unfold exec, bind. specialize (Hm w). unfold exec in Hm.
  destruct (m w) as [[a|e] w1]; cbn [snd] in *; [|exact Hm].
  destruct Hm as [C R]. destruct (Hk a w1) as [C' R']. unfold exec in C', R'.
  split; congruence.
Qed.

Lemma keeps_sockets_try_catch {A} (body : Js A) (handler : JsError -> Js A) :
  keeps_sockets body -> (forall e, keeps_sockets (handler e)) ->
  keeps_sockets (try_catch body handler).
Proof.
  intros Hb Hh w. unfold exec, try_catch. specialize (Hb w). unfold exec in Hb.
  destruct (body w) as [[a|e] w1]; cbn [snd] in *; [exact Hb|].
  destruct Hb as [C R]. destruct (Hh e w1) as [C' R']. unfold exec in C', R'.
  split; congruence.
Qed.

Lemma keeps_sockets_forEach (cs : list Ref) (callback : Ref -> Js unit) :
  (forall c, keeps_sockets (callback c)) -> keeps_sockets (forEach cs callback).
Proof.
  intro H. induction cs as [|c cs IH]; cbn [forEach].
  - intro w. now split.
  - apply keeps_sockets_bind; auto.
Qed.

Ltac returns_step :=
  first
    [ apply returns_try_catch; intro
    | apply returns_bind; [|intro]
    | apply returns_forEach; intro
    | (intro; eexists; reflexivity)
    | match goal with
      | |- returns (if ?b then _ else _) => destruct b
      end ].

Ltac sockets_step :=
  first
    [ apply keeps_sockets_try_catch; [|intro]
    | apply keeps_sockets_bind; [|intro]
    | apply keeps_sockets_forEach; intro
    | (intro; split; reflexivity)
    | match goal with
      | |- keeps_sockets (if ?b then _ else _) => destruct b
      | |- keeps_sockets (match ?x with _ => _ end) => destruct x
      end ].

(** X1: the [message] listener of the generated handler never lets an
    exception out, whatever the frame: unparsable text, [null], a value
    without a [type], any type. *)
Theorem generated_onMessage_never_throws
        {host : Host} (ws : Ref) (data : string) (w : World) :
  outcome (Generated.onMessage ws data) w = Normal tt.
Proof.
  assert (R : returns (Generated.onMessage ws data)).
  { unfold Generated.onMessage. repeat returns_step. }
  destruct (R w) as [[] H]. exact H.
Qed.

(** X2: no callback of either handler registers, unregisters or closes a
    socket: [wss.clients] and every [readyState] are after the callback what
    they were before it. *)
Theorem callbacks_keep_sockets
        {host : Host} (ws : Ref) (data clientIP reason : string) (code : nat)
        (err : JsError) :
  (keeps_sockets (Shipped.onConnection ws) /\
   keeps_sockets (Shipped.onMessage ws data) /\
   keeps_sockets (Shipped.onClose ws) /\
   keeps_sockets (Shipped.onError ws err)) /\
  (keeps_sockets (Generated.onConnection ws clientIP) /\
   keeps_sockets (Generated.onMessage ws data) /\
   keeps_sockets (Generated.onClose ws code reason) /\
   keeps_sockets (Generated.onError ws err)).
Proof.
  unfold Shipped.onConnection, Shipped.onMessage, Shipped.onClose, Shipped.onError,
    Generated.onConnection, Generated.onMessage, Generated.onClose, Generated.onError,
    Generated.route, Generated.broadcast, Generated.parse, get_property.
  repeat split; repeat sockets_step.
Qed.

(** ** The frames one by one *)

Section Frames.
Context {host : Host}.

Lemma onMessage_nullish (ws : Ref) (data : string) (message : JsValue) (w : World) :
  JSON_parse data = Some message ->
  nullish message = true ->
  Generated.onMessage ws data w
  = (Normal tt,
     set_wire (fun q => q ++ [(ws, JSON_stringify
                                     (Generated.error_message (toISOString (date_reads w))))])
       (set_date_reads S
          (set_console
             (fun c => (c ++ [LogValue "[WebSocket] Received:" message])
                         ++ [LogError "[WebSocket] Error parsing message:" TypeError]) w))).
Proof.
  intros H N.
  unfold Generated.onMessage, try_catch, bind at 1, Generated.parse. rewrite H.
  destruct message; try discriminate N; reflexivity.
Qed.

(** The five ways a frame can go, with what each sends and reads. *)
Lemma onMessage_sends_and_reads (ws : Ref) (data : string) (w : World) :
  let calls := sent_by (Generated.onMessage ws data) w in
  let reads := date_reads (exec (Generated.onMessage ws data) w) in
  (exists reply, calls = [(ws, reply)] /\ reads = S (date_reads w) /\
                 forall message, JSON_parse data = Some message ->
                                 strict_eq_string (kind_of message) "broadcast" = false) \/
  (exists message,
      JSON_parse data = Some message /\
      strict_eq_string (kind_of message) "broadcast" = true /\
      calls = stamped (data_of message) (date_reads w) (open_others w ws) /\
      reads = date_reads w + List.length (open_others w ws)).
Proof.
  intros calls reads. subst calls reads. unfold sent_by, exec.
  destruct (JSON_parse data) as [message|] eqn:H.
  - destruct (nullish message) eqn:N.
    + left. rewrite (onMessage_nullish ws data message w H N).
      cbn [snd wire set_wire date_reads set_date_reads set_console].
      rewrite skipn_length_app. eexists. repeat split.
      intros m E. injection E as <-. destruct message; try discriminate N; reflexivity.
    + destruct (strict_eq_string (kind_of message) "broadcast") eqn:B.
      * right. exists message. rewrite (onMessage_broadcast ws data message w H B).
        cbn [snd wire set_wire date_reads set_date_reads set_console].
        rewrite skipn_length_app. repeat split. exact B.
      * left. destruct (strict_eq_string (kind_of message) "ping") eqn:P.
        -- rewrite (onMessage_ping ws data message w H P).
           cbn [snd wire set_wire date_reads set_date_reads set_console].
           rewrite skipn_length_app. eexists. repeat split.
           intros m E. injection E as <-. exact B.
        -- rewrite (onMessage_default ws data message w H N P B).
           cbn [snd wire set_wire date_reads set_date_reads set_console].
           rewrite skipn_length_app. eexists. repeat split.
           intros m E. injection E as <-. exact B.
  - left. rewrite (onMessage_unparsable ws data w H).
    cbn [snd wire set_wire date_reads set_date_reads set_console].
    rewrite skipn_length_app. eexists. repeat split. intros m E. discriminate E.
Qed.

Lemma stamped_length (payload : JsValue) (n : nat) (targets : list Ref) :
  List.length (stamped payload n targets) = List.length targets.
Proof.
  revert n. induction targets as [|c cs IH]; intro n; cbn; [reflexivity|].
  now rewrite IH.
Qed.

Lemma received_absent (client : Ref) (calls : list (Ref * string)) :
  ~ In client (recipients calls) -> received client calls = [].
Proof.
  induction calls as [|[c d] cs IH]; intro H; [reflexivity|].
  unfold received. cbn [filter fst]. destruct (Nat.eqb c client) eqn:E.
  - apply Nat.eqb_eq in E. subst c. exfalso. apply H. now left.
  - apply IH. intro X. apply H. now right.
Qed.

(** X3: a frame that [JSON.parse] accepts as [null] is not echoed: reading
    [message.type] throws inside the [try], so after the line that logs the
    message the error is logged and the sender gets the one reply
    [Invalid JSON format], as for text that does not parse. *)
Theorem null_frame_is_answered_as_invalid (ws : Ref) (data : string) (w : World) :
  JSON_parse data = Some JNull ->
  sent_by (Generated.onMessage ws data) w
  = [(ws, JSON_stringify (Generated.error_message (toISOString (date_reads w))))] /\
  console (exec (Generated.onMessage ws data) w)
  = console w ++ [LogValue "[WebSocket] Received:" JNull;
                  LogError "[WebSocket] Error parsing message:" TypeError].
Proof.
  intro H. unfold sent_by, exec.
  rewrite (onMessage_nullish ws data JNull w H eq_refl).
  cbn [snd wire set_wire console set_date_reads set_console].
  rewrite skipn_length_app, <- app_assoc. split; reflexivity.
Qed.

(** X4: in the generated handler every [send] carries a clock reading of
    its own: whatever the frame, the number of [new Date()] evaluated by
    the listener is the number of [send] calls it makes. *)
Theorem one_clock_reading_per_send (ws : Ref) (data : string) (w : World) :
  date_reads (exec (Generated.onMessage ws data) w)
  = date_reads w + List.length (sent_by (Generated.onMessage ws data) w).
Proof.
  destruct (onMessage_sends_and_reads ws data w)
    as [[reply [C [R _]]]|[message [_ [_ [C R]]]]]; rewrite C, R.
  - cbn. now rewrite Nat.add_1_r.
  - now rewrite stamped_length.
Qed.

(** X5: on a frame of type [broadcast] the generated handler calls [send]
    on the same sockets, in the same order, as the checked-in handler does
    for any text from the same sender. *)
Theorem both_handlers_reach_the_same_sockets
        (ws : Ref) (data text : string) (message : JsValue) (w : World) :
  JSON_parse data = Some message ->
  strict_eq_string (kind_of message) "broadcast" = true ->
  recipients (sent_by (Generated.onMessage ws data) w)
  = recipients (sent_by (Shipped.onMessage ws text) w).
Proof.
  intros H K.
  rewrite (onMessage_broadcast_sent ws data message w H K), stamped_recipients.
  now rewrite Shipped_onMessage_sent, fanout_recipients.
Qed.

(** X6: when no socket of [wss.clients] other than the sender is OPEN
    (the sender is alone, or the others are closing), a broadcast makes no
    [send] call at all, in either handler; the sender gets no
    acknowledgement. *)
Theorem broadcast_to_nobody_sends_nothing
        (ws : Ref) (data text : string) (message : JsValue) (w : World) :
  (forall client, In client (wss_clients w) -> client = ws \/ readyState w client <> OPEN) ->
  JSON_parse data = Some message ->
  strict_eq_string (kind_of message) "broadcast" = true ->
  sent_by (Shipped.onMessage ws text) w = [] /\
  sent_by (Generated.onMessage ws data) w = [].
Proof.
  intros A H K.
  assert (E : open_others w ws = []).
  { destruct (open_others w ws) as [|c cs] eqn:O; [reflexivity|].
    assert (I : In c (open_others w ws)) by (rewrite O; now left).
    apply open_others_In in I. destruct I as [I [Hne Hop]].
    destruct (A c I); contradiction. }
  rewrite Shipped_onMessage_sent, (onMessage_broadcast_sent ws data message w H K), E.
  split; reflexivity.
Qed.

(** X8: in the generated handler only a frame of type [broadcast] reaches
    another socket: if the listener calls [send] on a socket other than the
    sender, the frame parsed to a message whose [type] is [broadcast]. *)
Theorem only_broadcast_reaches_others
        (ws other : Ref) (data : string) (w : World) :
  other <> ws ->
  In other (recipients (sent_by (Generated.onMessage ws data) w)) ->
  exists message, JSON_parse data = Some message /\
                  strict_eq_string (kind_of message) "broadcast" = true.
Proof.
  intros Hne Hin.
  destruct (onMessage_sends_and_reads ws data w)
    as [[reply [C _]]|[message [P [K _]]]].
  - rewrite C in Hin. cbn in Hin. destruct Hin as [E|[]]. congruence.
  - now exists message.
Qed.

(** X9: the sender of a frame gets at most one reply from the generated
    handler, and exactly one unless the frame is a broadcast, which is
    never acknowledged. *)
Theorem sender_gets_at_most_one_reply (ws : Ref) (data : string) (w : World) :
  let replies := received ws (sent_by (Generated.onMessage ws data) w) in
  List.length replies <= 1 /\
  (List.length replies = 0 <->
   exists message, JSON_parse data = Some message /\
                   strict_eq_string (kind_of message) "broadcast" = true).
Proof.
  intro replies. subst replies.
  destruct (onMessage_sends_and_reads ws data w)
    as [[reply [C [_ N]]]|[message [P [K [C _]]]]]; rewrite C.
  - unfold received. cbn [filter fst]. rewrite Nat.eqb_refl. cbn. split; [lia|].
    split; [discriminate|]. intros [message [P K]]. rewrite (N message P) in K.
    discriminate K.
  - rewrite received_absent.
    + cbn. split; [lia|]. split; [|reflexivity]. intros _. now exists message.
    + rewrite stamped_recipients. apply open_others_not_sender.
Qed.

End Frames.

(** ** One message after another *)

(** X7: two inbound messages handled one after the other by the checked-in
    handler make the calls of the first followed by the calls of the
    second, so every socket is handed the two broadcasts in the order the
    messages came in. *)
Theorem shipped_messages_keep_their_order
        (a b : Ref) (first second : string) (client : Ref) (w : World) :
  let both := bind (Shipped.onMessage a first) (fun _ => Shipped.onMessage b second) in
  sent_by both w
  = sent_by (Shipped.onMessage a first) w ++ sent_by (Shipped.onMessage b second) w /\
  received client (sent_by both w)
  = received client (sent_by (Shipped.onMessage a first) w)
    ++ received client (sent_by (Shipped.onMessage b second) w).
Proof.
  intro both. subst both.
  assert (E : sent_by (bind (Shipped.onMessage a first) (fun _ => Shipped.onMessage b second)) w
              = sent_by (Shipped.onMessage a first) w
                ++ sent_by (Shipped.onMessage b second) w).
  { rewrite !Shipped_onMessage_sent. unfold sent_by, exec, bind.
    rewrite Shipped_onMessage_run, Shipped_onMessage_run.
    cbn [snd wire set_wire set_console]. rewrite <- app_assoc.
    apply skipn_length_app. }
  split; [exact E|]. rewrite E. apply received_app.
Qed.

(** * The scaffolding script *)





(** X10: [create_file] on a file that already holds what [echo] prints
    for the content (as it does after an earlier [create_file] with the
    same content went through) changes no file, makes no backup and
    reports the file as unchanged, whatever the time of the call. *)
Theorem create_file_is_idempotent
        (stamp file content description : string) (s : Setup.Shell) :
  Setup.files s file = Some (Setup.echo content) ->
  let s' := Setup.create_file stamp file content description s in
  Setup.files s' = Setup.files s /\
  Setup.stdout s'
  = Setup.stdout s
    ++ [(Setup.SKIP, ("File unchanged: " ++ file ++ " (" ++ description ++ ")")%string)].
Proof.
  intros F s'. subst s'.
  unfold Setup.create_file, Setup.backup_if_different. rewrite F.
  rewrite String.eqb_refl. cbn. split; reflexivity.
Qed.






(** ** The further statements at concrete inputs *)

Lemma null_frame_scenario :
  JSON_parse (Host := sample_host) "null" = Some JNull /\
  sent_by (Generated.onMessage (host := sample_host) 1 "null") scenario_world
  = [(1, sample_stringify (Generated.error_message "T0"))].
Proof.
  split; [reflexivity|].
  exact (proj1 (null_frame_is_answered_as_invalid (host := sample_host)
                  1 "null"%string scenario_world eq_refl)).
Defined.

Lemma same_sockets_scenario :
  JSON_parse (Host := sample_host) broadcast_frame
  = Some (JObject [("type", JString "broadcast"); ("data", JString "hi")]) /\
  recipients (sent_by (Generated.onMessage (host := sample_host) 1 broadcast_frame)
                      sample_world)
  = recipients (sent_by (Shipped.onMessage 1 "hi") sample_world).
Proof.
  split; [reflexivity|].
  exact (both_handlers_reach_the_same_sockets (host := sample_host)
           1 broadcast_frame "hi"%string
           (JObject [("type", JString "broadcast"); ("data", JString "hi")])
           sample_world eq_refl eq_refl).
Defined.

Lemma lone_sender_scenario :
  (forall client, In client (wss_clients (set_clients (fun _ => [1; 3]) sample_world)) ->
                  client = 1 \/
                  readyState (set_clients (fun _ => [1; 3]) sample_world) client <> OPEN) /\
  sent_by (Generated.onMessage (host := sample_host) 1 broadcast_frame)
          (set_clients (fun _ => [1; 3]) sample_world) = [].
Proof.
  assert (A : forall client,
             In client (wss_clients (set_clients (fun _ => [1; 3]) sample_world)) ->
             client = 1 \/
             readyState (set_clients (fun _ => [1; 3]) sample_world) client <> OPEN).
  { intros client [<-|[<-|[]]]; [now left|right; discriminate]. }
  split; [exact A|].
  exact (proj2 (broadcast_to_nobody_sends_nothing (host := sample_host)
                  1 broadcast_frame "hi"%string
                  (JObject [("type", JString "broadcast"); ("data", JString "hi")])
                  (set_clients (fun _ => [1; 3]) sample_world) A eq_refl eq_refl)).
Defined.

Lemma reached_socket_scenario :
  2 <> 1 /\
  In 2 (recipients (sent_by (Generated.onMessage (host := sample_host) 1 broadcast_frame)
                            scenario_world)) /\
  exists message, JSON_parse (Host := sample_host) broadcast_frame = Some message /\
                  strict_eq_string (kind_of message) "broadcast" = true.
Proof.
  assert (N : 2 <> 1) by discriminate.
  assert (I : In 2 (recipients (sent_by (Generated.onMessage (host := sample_host) 1
                                           broadcast_frame) scenario_world))).
  { cbn. now left. }
  split; [exact N|]. split; [exact I|].
  exact (only_broadcast_reaches_others (host := sample_host)
           1 2 broadcast_frame scenario_world N I).
Defined.





Lemma unchanged_gitignore_scenario :
  Setup.files sample_shell ".gitignore" = Some (Setup.echo "node_modules/") /\
  Setup.files (Setup.create_file "20250606_120000" ".gitignore" "node_modules/"
                 "Git ignore rules" sample_shell)
  = Setup.files sample_shell.
Proof.
  split; [reflexivity|].
  exact (proj1 (create_file_is_idempotent
                  "20250606_120000" ".gitignore" "node_modules/" "Git ignore rules"
                  sample_shell eq_refl)).
Defined.
